(** * RexIntegration: the REX widgets of a maintenance window

    A shallow embedding of
    [taqathon-front/src/components/maintenance/RexIntegration.tsx]:
    the three React components [QuickRexDialog], [RexOpportunityBanner]
    and [RexIntegration], their local state, and the handlers that the
    rendered buttons call.  Stateful code is written in a small
    state / trace / exception monad; the JavaScript built-ins the file
    uses ([String.prototype.includes], [Array.prototype.filter],
    truthiness, [Date] comparison) are written out. *)

From Stdlib Require Import ZArith List Bool Ascii String DecimalString DecimalZ
  DecimalPos Lia.
From stdpp Require Import base option list strings gmap.

Local Open Scope string_scope.
Local Open Scope list_scope.

(** ** JavaScript values used by the component *)

Module Js.

(** The time value of a [Date] object: milliseconds since the epoch,
    or NaN for an invalid date. *)
Inductive Date : Type :=
| TimeValue (ms : Z)
| InvalidDate.

(** [d1 < d2] on two [Date] objects: both are converted to numbers and
    a comparison with NaN is false. *)
Definition Date_lt (d1 d2 : Date) : bool :=
  match d1, d2 with
  | TimeValue a, TimeValue b => (a <? b)%Z
  | _, _ => false
  end.

(** What "earlier than" means for two dates, as a proposition. *)
Definition earlier (d1 d2 : Date) : Prop :=
  exists a b, d1 = TimeValue a /\ d2 = TimeValue b /\ (a < b)%Z.

(** ToBoolean on a string: only the empty string is falsy. *)
Definition truthy (s : string) : bool :=
  match s with
  | EmptyString => false
  | String _ _ => true
  end.

(** [a || b] on strings where [a] may be [undefined]. *)
Definition or_default (a : option string) (b : string) : string :=
  match a with
  | Some s => if truthy s then s else b
  | None => b
  end.

(** Number::toString for an integral time value (always below 1e21,
    so no exponent is printed). *)
Definition Number_toString (n : Z) : string :=
  NilZero.string_of_int (Z.to_int n).

(** StringIndexOf(s, searchValue, fromIndex) of ECMAScript, walking the
    suffixes of [s]; [i] is the index of the suffix being tried. *)
Fixpoint StringIndexOf (i : nat) (s searchValue : string) : option nat :=
  if String.prefix searchValue s then Some i
  else match s with
       | EmptyString => None
       | String _ s' => StringIndexOf (S i) s' searchValue
       end.

(** [s.includes(searchString)]. *)
Definition includes (s searchString : string) : bool :=
  match StringIndexOf 0 s searchString with
  | Some _ => true
  | None => false
  end.

(** [t] occurs in [s] as a contiguous run of characters. *)
Definition Substring (t s : string) : Prop :=
  exists pre post, s = pre +:+ t +:+ post.

(** A whitespace-only string (space, tab, line feed, carriage return). *)
Definition is_space (c : ascii) : bool :=
  match nat_of_ascii c with
  | 32%nat | 9%nat | 10%nat | 13%nat => true
  | _ => false
  end.

Fixpoint whitespace_only (s : string) : bool :=
  match s with
  | EmptyString => true
  | String c s' => is_space c && whitespace_only s'
  end.

End Js.

(** ** Data model *)

(** Modelled from the spec: the declarations of [@/types/anomaly]
    ([Anomaly], [MaintenanceWindow], [ReturnOfExperience]) are not part of
    the source at hand; the records below carry the fields that
    RexIntegration.tsx reads or writes, typed as section 3 of the
    specification describes them.  [scheduleStart] and [scheduleEnd] hold
    the time value that [new Date(...)] yields for the field. *)
Module Anomaly.
Record t : Type := mk { status : string }.
End Anomaly.

Module MaintenanceWindow.
Record t : Type := mk {
  id : option string;
  title : string;
  scheduleStart : Js.Date;
  scheduleEnd : Js.Date;
  status : string;
  anomalies : option (list Anomaly.t)
}.
End MaintenanceWindow.

Module ReturnOfExperience.
Record t : Type := mk {
  id : string;
  summary : string;
  rootCause : string;
  correctionAction : string;
  preventiveAction : string;
  lessonsLearned : string;
  recommendations : string;
  attachments : list string;
  createdBy : string;
  createdAt : Js.Date
}.
End ReturnOfExperience.

Inductive Impact : Type := low | medium | high | critical.

Inductive Category : Type :=
  technical | procedural | organizational | safety | quality.

Module QuickRexFormData.
Record t : Type := mk {
  summary : string;
  rootCause : string;
  correctionAction : string;
  preventiveAction : string;
  lessonsLearned : string;
  recommendations : string;
  impact : Impact;
  category : Category
}.
End QuickRexFormData.


(** ** Completions, and the handler monad

    A handler run inside React reads the state captured by the render
    that created it and queues state updates; the updates are applied
    when the handler is done.  A computation therefore yields the trace
    of what it did to the outside (toasts, the callback, navigation,
    queued updates) and a completion: a value, or a thrown error. *)

Inductive Error : Type :=
| TypeError
| CallbackError.

Inductive Completion (A : Type) : Type :=
| Normal (a : A)
| Throw (e : Error).
Arguments Normal {A} a.
Arguments Throw {A} e.

Inductive Event : Type :=
| toast_error (message : string)
| toast_success (message : string)
| call_onRexCreated (rex : ReturnOfExperience.t)
| navigate (to : string)
| setIsOpen (value : bool)
| setIsSubmitting (value : bool)
| setFormData (value : QuickRexFormData.t).

Definition M (A : Type) : Type := (list Event * Completion A)%type.

Definition ret {A} (a : A) : M A := ([], Normal a).

Definition bind {A B} (m : M A) (k : A -> M B) : M B :=
  match m with
  | (tr, Normal a) => let '(tr', r) := k a in (tr ++ tr', r)
  | (tr, Throw e) => (tr, Throw e)
  end.

Definition emit (e : Event) : M unit := ([e], Normal tt).

(** [try { body } catch (error) { handler }] *)
Definition try_catch {A} (body : M A) (handler : Error -> M A) : M A :=
  match body with
  | (tr, Normal a) => (tr, Normal a)
  | (tr, Throw e) => let '(tr', r) := handler e in (tr ++ tr', r)
  end.

(** [... finally { fin }]: [fin] always runs; the completion of the
    protected block stands unless [fin] itself throws. *)
Definition finally {A} (body : M A) (fin : M unit) : M A :=
  let '(tr, r) := body in
  let '(tr', r') := fin in
  (tr ++ tr', match r' with Normal _ => r | Throw e => Throw e end).

Declare Scope handler_scope.
Delimit Scope handler_scope with handler.
Notation "x <- m ;; k" := (bind m (fun x => k))
  (at level 100, m at next level, right associativity) : handler_scope.
Notation "m ;; k" := (bind m (fun _ => k))
  (at level 100, right associativity) : handler_scope.

(** ** QuickRexDialog *)

(** The behaviour of the [onRexCreated] prop when it is given: the
    callback is outside this file, so all that is known of a call is
    whether it returns or throws. *)
Definition Callback : Type := ReturnOfExperience.t -> Completion unit.

Record DialogState : Type := mkDialogState {
  isOpen : bool;
  isSubmitting : bool;
  formData : QuickRexFormData.t
}.

(** The value given to [useState<QuickRexFormData>] (lines 79-88), which
    is also the value the form is reset to (lines 122-131). *)
Definition emptyForm : QuickRexFormData.t :=
  {| QuickRexFormData.summary := "";
     QuickRexFormData.rootCause := "";
     QuickRexFormData.correctionAction := "";
     QuickRexFormData.preventiveAction := "";
     QuickRexFormData.lessonsLearned := "";
     QuickRexFormData.recommendations := "";
     QuickRexFormData.impact := medium;
     QuickRexFormData.category := technical |}.

Definition initialDialogState : DialogState :=
  {| isOpen := false; isSubmitting := false; formData := emptyForm |}.

(** Lines 90-93: [anomalies?.filter(...) || []]. *)
Definition is_resolved (a : Anomaly.t) : bool :=
  String.eqb (Anomaly.status a) "CLOSED" || String.eqb (Anomaly.status a) "TREATED".

Definition resolvedAnomalies (maintenanceWindow : MaintenanceWindow.t) : list Anomaly.t :=
  match List.filter is_resolved <$> MaintenanceWindow.anomalies maintenanceWindow with
  | Some kept => kept (* an array, even an empty one, is truthy *)
  | None => []
  end.

(** An anomaly counts as resolved, in the specification's words, when
    its status is CLOSED or TREATED. *)
Definition Resolved (a : Anomaly.t) : Prop :=
  Anomaly.status a = "CLOSED" \/ Anomaly.status a = "TREATED".

#[local] Instance Resolved_dec (a : Anomaly.t) : Decision (Resolved a).
Proof. unfold Resolved. apply _. Defined.

Fixpoint count_resolved (anomalies : list Anomaly.t) : nat :=
  match anomalies with
  | [] => 0
  | a :: rest => (if decide (Resolved a) then 1 else 0) + count_resolved rest
  end.

(** The number shown in the "Anomalies Resolved" badge (line 192); the
    specification calls it resolvedAnomalyCount. *)
Definition resolvedAnomalyCount (maintenanceWindow : MaintenanceWindow.t) : nat :=
  length (resolvedAnomalies maintenanceWindow).

(** Line 96: [!formData.summary || !formData.rootCause]. *)
Definition missing_mandatory (formData : QuickRexFormData.t) : bool :=
  negb (Js.truthy (QuickRexFormData.summary formData))
  || negb (Js.truthy (QuickRexFormData.rootCause formData)).

(** Lines 103-114: the object literal [newRex].  [Date_now] is what
    [Date.now()] returns inside the template literal, [new_Date] the time
    value of the [new Date()] evaluated after it. *)
Definition newRex (formData : QuickRexFormData.t) (Date_now new_Date : Z)
  : ReturnOfExperience.t :=
  {| ReturnOfExperience.id := "rex_" +:+ Js.Number_toString Date_now;
     ReturnOfExperience.summary := QuickRexFormData.summary formData;
     ReturnOfExperience.rootCause := QuickRexFormData.rootCause formData;
     ReturnOfExperience.correctionAction := QuickRexFormData.correctionAction formData;
     ReturnOfExperience.preventiveAction := QuickRexFormData.preventiveAction formData;
     ReturnOfExperience.lessonsLearned := QuickRexFormData.lessonsLearned formData;
     ReturnOfExperience.recommendations := QuickRexFormData.recommendations formData;
     ReturnOfExperience.attachments := [];
     ReturnOfExperience.createdBy := "Current User";
     ReturnOfExperience.createdAt := Js.TimeValue new_Date |}.

(** [onRexCreated?.(newRex)]: nothing happens when the prop is absent. *)
Definition optional_call (onRexCreated : option Callback) (rex : ReturnOfExperience.t)
  : M unit :=
  match onRexCreated with
  | Some callback => ([call_onRexCreated rex], callback rex)
  | None => ret tt
  end.

(** Lines 95-137.  The function is [async] but awaits nothing, so its
    whole body runs within the click that calls it. *)
Definition handleSubmit (onRexCreated : option Callback)
    (formData : QuickRexFormData.t) (Date_now new_Date : Z) : M unit :=
  (if missing_mandatory formData then
     emit (toast_error "Please fill in the summary and root cause analysis")
   else
     emit (setIsSubmitting true) ;;
     finally
       (try_catch
          (optional_call onRexCreated (newRex formData Date_now new_Date) ;;
           emit (toast_success "REX created successfully!") ;;
           emit (setIsOpen false) ;;
           emit (setFormData emptyForm))
          (fun _ => emit (toast_error "Failed to create REX")))
       (emit (setIsSubmitting false)))%handler.

(** Lines 139-141; [id] is concatenated as JavaScript does it, an
    absent id printing as "undefined". *)
Definition handleCreateFullRex (maintenanceWindow : MaintenanceWindow.t) : M unit :=
  emit (navigate ("/rex?source=maintenance&windowId=" +:+
                  match MaintenanceWindow.id maintenanceWindow with
                  | Some i => i
                  | None => "undefined"
                  end)).

(** The validation and construction part of [handleSubmit] (lines
    96-114), which the specification names buildRecord: either the
    submission is refused or this is the record handed on. *)
Inductive ValidationError : Type := MandatoryFieldsMissing.

Definition buildRecord (formData : QuickRexFormData.t) (Date_now new_Date : Z)
  : ValidationError + ReturnOfExperience.t :=
  if missing_mandatory formData then inl MandatoryFieldsMissing
  else inr (newRex formData Date_now new_Date).

(** React applies the queued updates, in order, to the state of the
    render the handler came from. *)
Definition apply_update (st : DialogState) (e : Event) : DialogState :=
  match e with
  | setIsOpen v =>
      {| isOpen := v; isSubmitting := isSubmitting st; formData := formData st |}
  | setIsSubmitting v =>
      {| isOpen := isOpen st; isSubmitting := v; formData := formData st |}
  | setFormData v =>
      {| isOpen := isOpen st; isSubmitting := isSubmitting st; formData := v |}
  | _ => st
  end.

Definition commit (st : DialogState) (trace : list Event) : DialogState :=
  fold_left apply_update trace st.

(** The calls of the callback that a trace holds, in order. *)
Fixpoint callback_calls (trace : list Event) : list ReturnOfExperience.t :=
  match trace with
  | [] => []
  | call_onRexCreated rex :: rest => rex :: callback_calls rest
  | _ :: rest => callback_calls rest
  end.

(** Does the trace close the dialog? *)
Fixpoint closes_dialog (trace : list Event) : bool :=
  match trace with
  | [] => false
  | setIsOpen false :: _ => true
  | _ :: rest => closes_dialog rest
  end.

(** What the user can do with a mounted dialog: the handlers wired to
    its inputs and buttons (lines 144-330).  [Submit] carries the two
    clock readings its [handleSubmit] call will make. *)
Inductive DialogAction : Type :=
| OpenChange (open : bool)
| ChangeImpact (value : Impact)
| ChangeCategory (value : Category)
| ChangeSummary (value : string)
| ChangeRootCause (value : string)
| ChangeCorrectionAction (value : string)
| ChangeLessonsLearned (value : string)
| Cancel
| CreateFullRex
| Submit (Date_now new_Date : Z).

Definition with_field (fd : QuickRexFormData.t) (a : DialogAction) : QuickRexFormData.t :=
  match a with
  | ChangeImpact v =>
      {| QuickRexFormData.summary := QuickRexFormData.summary fd;
         QuickRexFormData.rootCause := QuickRexFormData.rootCause fd;
         QuickRexFormData.correctionAction := QuickRexFormData.correctionAction fd;
         QuickRexFormData.preventiveAction := QuickRexFormData.preventiveAction fd;
         QuickRexFormData.lessonsLearned := QuickRexFormData.lessonsLearned fd;
         QuickRexFormData.recommendations := QuickRexFormData.recommendations fd;
         QuickRexFormData.impact := v;
         QuickRexFormData.category := QuickRexFormData.category fd |}
  | ChangeCategory v =>
      {| QuickRexFormData.summary := QuickRexFormData.summary fd;
         QuickRexFormData.rootCause := QuickRexFormData.rootCause fd;
         QuickRexFormData.correctionAction := QuickRexFormData.correctionAction fd;
         QuickRexFormData.preventiveAction := QuickRexFormData.preventiveAction fd;
         QuickRexFormData.lessonsLearned := QuickRexFormData.lessonsLearned fd;
         QuickRexFormData.recommendations := QuickRexFormData.recommendations fd;
         QuickRexFormData.impact := QuickRexFormData.impact fd;
         QuickRexFormData.category := v |}
  | ChangeSummary v =>
      {| QuickRexFormData.summary := v;
         QuickRexFormData.rootCause := QuickRexFormData.rootCause fd;
         QuickRexFormData.correctionAction := QuickRexFormData.correctionAction fd;
         QuickRexFormData.preventiveAction := QuickRexFormData.preventiveAction fd;
         QuickRexFormData.lessonsLearned := QuickRexFormData.lessonsLearned fd;
         QuickRexFormData.recommendations := QuickRexFormData.recommendations fd;
         QuickRexFormData.impact := QuickRexFormData.impact fd;
         QuickRexFormData.category := QuickRexFormData.category fd |}
  | ChangeRootCause v =>
      {| QuickRexFormData.summary := QuickRexFormData.summary fd;
         QuickRexFormData.rootCause := v;
         QuickRexFormData.correctionAction := QuickRexFormData.correctionAction fd;
         QuickRexFormData.preventiveAction := QuickRexFormData.preventiveAction fd;
         QuickRexFormData.lessonsLearned := QuickRexFormData.lessonsLearned fd;
         QuickRexFormData.recommendations := QuickRexFormData.recommendations fd;
         QuickRexFormData.impact := QuickRexFormData.impact fd;
         QuickRexFormData.category := QuickRexFormData.category fd |}
  | ChangeCorrectionAction v =>
      {| QuickRexFormData.summary := QuickRexFormData.summary fd;
         QuickRexFormData.rootCause := QuickRexFormData.rootCause fd;
         QuickRexFormData.correctionAction := v;
         QuickRexFormData.preventiveAction := QuickRexFormData.preventiveAction fd;
         QuickRexFormData.lessonsLearned := QuickRexFormData.lessonsLearned fd;
         QuickRexFormData.recommendations := QuickRexFormData.recommendations fd;
         QuickRexFormData.impact := QuickRexFormData.impact fd;
         QuickRexFormData.category := QuickRexFormData.category fd |}
  | ChangeLessonsLearned v =>
      {| QuickRexFormData.summary := QuickRexFormData.summary fd;
         QuickRexFormData.rootCause := QuickRexFormData.rootCause fd;
         QuickRexFormData.correctionAction := QuickRexFormData.correctionAction fd;
         QuickRexFormData.preventiveAction := QuickRexFormData.preventiveAction fd;
         QuickRexFormData.lessonsLearned := v;
         QuickRexFormData.recommendations := QuickRexFormData.recommendations fd;
         QuickRexFormData.impact := QuickRexFormData.impact fd;
         QuickRexFormData.category := QuickRexFormData.category fd |}
  | _ => fd
  end.

(** The handler a dialog action runs, given the props and the state of
    the render that is on screen. *)
Definition dialog_handler (maintenanceWindow : MaintenanceWindow.t)
    (onRexCreated : option Callback) (st : DialogState) (a : DialogAction) : M unit :=
  match a with
  | OpenChange open => emit (setIsOpen open)
  | Cancel => emit (setIsOpen false)
  | CreateFullRex => handleCreateFullRex maintenanceWindow
  | Submit Date_now new_Date => handleSubmit onRexCreated (formData st) Date_now new_Date
  | _ => emit (setFormData (with_field (formData st) a))
  end.

Definition dialog_step (maintenanceWindow : MaintenanceWindow.t)
    (onRexCreated : option Callback) (st : DialogState) (a : DialogAction)
  : DialogState * list Event :=
  let trace := fst (dialog_handler maintenanceWindow onRexCreated st a) in
  (commit st trace, trace).

(** ** RexSummaryCard and RexOpportunityBanner *)

Record RexSummaryCardProps : Type := mkSummary {
  rexCount : nat;
  lastRexDate : option Js.Date
}.

(** Lines 385-387, with [now] the time value of [new Date()]. *)
Definition isCompleted_of (maintenanceWindow : MaintenanceWindow.t) (now : Z) : bool :=
  String.eqb (MaintenanceWindow.status maintenanceWindow) "completed"
  || Js.Date_lt (MaintenanceWindow.scheduleEnd maintenanceWindow) (Js.TimeValue now).

(** Lines 389-390: [anomalies && anomalies.length > 0] is [undefined]
    when the field is absent and a boolean otherwise. *)
Definition hasSignificantAnomalies (maintenanceWindow : MaintenanceWindow.t)
  : option bool :=
  match MaintenanceWindow.anomalies maintenanceWindow with
  | None => None
  | Some l => Some (0 <? length l)%nat
  end.

(** ToBoolean of such a value. *)
Definition truthy_flag (v : option bool) : bool :=
  match v with
  | Some b => b
  | None => false
  end.

(** What the banner shows when it is not [null]: the anomaly count of
    line 409 (the nested dialog gets no [onRexCreated], line 412). *)
Record BannerView : Type := mkBanner { addressed : nat }.

(** Lines 380-418. *)
Definition RexOpportunityBanner (maintenanceWindow : MaintenanceWindow.t) (now : Z)
  : option BannerView :=
  if negb (isCompleted_of maintenanceWindow now)
     || negb (truthy_flag (hasSignificantAnomalies maintenanceWindow))
  then None
  else Some {| addressed :=
                 match MaintenanceWindow.anomalies maintenanceWindow with
                 | Some l => length l
                 | None => 0
                 end |}.

(** The specification's isOpportunity: the banner is rendered. *)
Definition isOpportunity (maintenanceWindow : MaintenanceWindow.t) (currentTime : Z) : bool :=
  match RexOpportunityBanner maintenanceWindow currentTime with
  | Some _ => true
  | None => false
  end.

(** ** RexIntegration *)

Record RexIntegrationProps : Type := mkProps {
  maintenanceWindow : MaintenanceWindow.t;
  isCompleted : bool;
  onRexCreated : option Callback
}.

(** The callback of [rexRecords.filter] (lines 429-431). *)
Definition belongs_to_window (w : MaintenanceWindow.t) (rex : ReturnOfExperience.t) : bool :=
  Js.includes (ReturnOfExperience.summary rex) (MaintenanceWindow.title w)
  || Js.includes (ReturnOfExperience.id rex) (Js.or_default (MaintenanceWindow.id w) "").

(** Lines 428-432; the specification calls it filterByWindow. *)
Definition windowRexRecords (rexRecords : list ReturnOfExperience.t)
    (w : MaintenanceWindow.t) : list ReturnOfExperience.t :=
  List.filter (belongs_to_window w) rexRecords.

(** Lines 434-437; the specification calls it lastRecordTimestamp.
    Reading [.createdAt] off an index outside the array would be a
    TypeError. *)
Definition lastRexDate_of (windowRexRecords : list ReturnOfExperience.t)
  : Completion (option Js.Date) :=
  if (0 <? length windowRexRecords)%nat then
    match windowRexRecords !! (length windowRexRecords - 1)%nat with
    | Some rex => Normal (Some (ReturnOfExperience.createdAt rex))
    | None => Throw TypeError
    end
  else Normal None.

Record RexIntegrationView : Type := mkView {
  banner : option BannerView;
  summaryCard : RexSummaryCardProps;
  creationActions : bool
}.

(** The component's own state: [useState<ReturnOfExperience[]>([])], of
    which only the value is kept (line 426), and the state of the two
    dialogs it can mount. *)
Record RexIntegrationState : Type := mkState {
  rexRecords : list ReturnOfExperience.t;
  bannerDialog : DialogState;
  actionsDialog : DialogState
}.

Definition initialState : RexIntegrationState :=
  {| rexRecords := [];
     bannerDialog := initialDialogState;
     actionsDialog := initialDialogState |}.

(** Lines 420-461: one render. *)
Definition RexIntegration (props : RexIntegrationProps) (st : RexIntegrationState)
    (now : Z) : Completion RexIntegrationView :=
  let records := windowRexRecords (rexRecords st) (maintenanceWindow props) in
  match lastRexDate_of records with
  | Normal last =>
      Normal {| banner := RexOpportunityBanner (maintenanceWindow props) now;
                summaryCard := {| rexCount := length records; lastRexDate := last |};
                creationActions := isCompleted props |}
  | Throw e => Throw e
  end.

(** A user action goes to the dialog inside the banner, which was given
    no callback, or to the dialog under the summary card, which gets the
    component's own.  Actions are taken whether or not the dialog is
    mounted, open or its button enabled: more than the page allows,
    hence every behaviour it allows. *)
Inductive Action : Type :=
| InBanner (a : DialogAction)
| InActions (a : DialogAction).

Definition step (props : RexIntegrationProps) (st : RexIntegrationState) (a : Action)
  : RexIntegrationState * list Event :=
  match a with
  | InBanner a' =>
      let '(d, trace) := dialog_step (maintenanceWindow props) None (bannerDialog st) a' in
      ({| rexRecords := rexRecords st; bannerDialog := d;
          actionsDialog := actionsDialog st |}, trace)
  | InActions a' =>
      let '(d, trace) :=
        dialog_step (maintenanceWindow props) (onRexCreated props) (actionsDialog st) a' in
      ({| rexRecords := rexRecords st; bannerDialog := bannerDialog st;
          actionsDialog := d |}, trace)
  end.

(** A session: the props of each render and the action taken on it. *)
Fixpoint run (st : RexIntegrationState) (session : list (RexIntegrationProps * Action))
  : RexIntegrationState :=
  match session with
  | [] => st
  | (props, a) :: rest => run (fst (step props st a)) rest
  end.

(** ** Arrays and objects by reference

    To speak of mutation the record array and the window are placed in a
    store of objects; [filter] allocates the array it returns. *)

Inductive Obj : Type :=
| ArrayObj (elements : list ReturnOfExperience.t)
| WindowObj (w : MaintenanceWindow.t).

Definition windowRexRecords_in (h : gmap positive Obj) (rexRecords w : positive)
  : option (positive * gmap positive Obj) :=
  match h !! rexRecords, h !! w with
  | Some (ArrayObj elements), Some (WindowObj window) =>
      let A := fresh (dom h) in
      Some (A, <[A := ArrayObj (List.filter (belongs_to_window window) elements)]> h)
  | _, _ => None
  end.

(** ** Sample values *)

Definition sample_window : MaintenanceWindow.t :=
  MaintenanceWindow.mk (Some "w1") "Pump overhaul"
    (Js.TimeValue 0) (Js.TimeValue 10) "completed" None.

Definition sample_rex_pump : ReturnOfExperience.t :=
  ReturnOfExperience.mk "rex_1" "Pump overhaul went well" "seal" "" "" "" ""
    [] "Current User" (Js.TimeValue 5).

Definition sample_rex_valve : ReturnOfExperience.t :=
  ReturnOfExperience.mk "rex_2" "Valve check" "wear" "" "" "" ""
    [] "Current User" (Js.TimeValue 3).

Definition sample_records : list ReturnOfExperience.t :=
  [sample_rex_valve; sample_rex_pump; sample_rex_valve].

Definition sample_store : gmap positive Obj :=
  <[1%positive := ArrayObj sample_records]> (<[2%positive := WindowObj sample_window]> ∅).

Definition form_S_R : QuickRexFormData.t :=
  QuickRexFormData.mk "S" "R" "" "" "" "" medium technical.

Definition form_blank_summary : QuickRexFormData.t :=
  QuickRexFormData.mk " " "X" "" "" "" "" medium technical.

Definition dialog_without_summary : DialogState :=
  {| isOpen := true; isSubmitting := false;
     formData := QuickRexFormData.mk "" "X" "" "" "" "" high safety |}.

Definition callback_returns : Callback := fun _ => Normal tt.

(** ** Sessions and their traces *)

(** The events of a whole session, in the order they happen. *)
Fixpoint run_trace (st : RexIntegrationState)
    (session : list (RexIntegrationProps * Action)) : list Event :=
  match session with
  | [] => []
  | (props, a) :: rest =>
      snd (step props st a) ++ run_trace (fst (step props st a)) rest
  end.

(** One dialog taken through several actions under the same props. *)
Fixpoint dialog_run (maintenanceWindow : MaintenanceWindow.t)
    (onRexCreated : option Callback) (st : DialogState) (actions : list DialogAction)
  : DialogState * list Event :=
  match actions with
  | [] => (st, [])
  | a :: rest =>
      let '(st', trace) := dialog_step maintenanceWindow onRexCreated st a in
      let '(st'', trace') := dialog_run maintenanceWindow onRexCreated st' rest in
      (st'', trace ++ trace')
  end.

(** Does the callback, when there is one, return from the call? *)
Definition returns_normally (onRexCreated : option Callback) (rex : ReturnOfExperience.t)
  : bool :=
  match onRexCreated with
  | Some callback => match callback rex with Normal _ => true | Throw _ => false end
  | None => true
  end.


(** The clicks on "Create Quick REX" of the dialog under the summary
    card that a session holds. *)
Fixpoint submit_clicks (session : list (RexIntegrationProps * Action)) : nat :=
  match session with
  | [] => 0
  | (_, InActions (Submit _ _)) :: rest => S (submit_clicks rest)
  | _ :: rest => submit_clicks rest
  end.

(** Lines 392-394, 412 and 451-458: the dialog inside the banner exists
    only in a render that shows the banner, the dialog under the summary
    card only in a render whose [isCompleted] prop is set. *)
Definition mounted (props : RexIntegrationProps) (now : Z) (a : Action) : bool :=
  match a with
  | InBanner _ => isOpportunity (maintenanceWindow props) now
  | InActions _ => isCompleted props
  end.

(** React drops the state of a component that a render does not mount;
    mounted again, it starts from its initial state. *)
Definition remount (props : RexIntegrationProps) (now : Z) (st : RexIntegrationState)
  : RexIntegrationState :=
  {| rexRecords := rexRecords st;
     bannerDialog :=
       if isOpportunity (maintenanceWindow props) now
       then bannerDialog st else initialDialogState;
     actionsDialog :=
       if isCompleted props then actionsDialog st else initialDialogState |}.

(** A session as the page allows it.  Each turn is a render, with its
    props and its time, followed by an action of the user or by none;
    an action on a dialog that the render does not mount cannot happen,
    and there is then no such session. *)
Fixpoint run_mounted (st : RexIntegrationState)
    (session : list (RexIntegrationProps * Z * option Action))
  : option (RexIntegrationState * list Event) :=
  match session with
  | [] => Some (st, [])
  | (props, now, None) :: rest => run_mounted (remount props now st) rest
  | (props, now, Some a) :: rest =>
      if mounted props now a then
        let '(st1, trace) := step props (remount props now st) a in
        match run_mounted st1 rest with
        | Some (st2, trace') => Some (st2, trace ++ trace')
        | None => None
        end
      else None
  end.

(** The two form fields that no input of the dialog edits. *)
Definition untouched_fields_empty (fd : QuickRexFormData.t) : Prop :=
  QuickRexFormData.preventiveAction fd = "" /\ QuickRexFormData.recommendations fd = "".

Definition callback_throws : Callback := fun _ => Throw CallbackError.

Definition sample_window_with_anomalies : MaintenanceWindow.t :=
  MaintenanceWindow.mk (Some "w2") "Valve check"
    (Js.TimeValue 0) (Js.TimeValue 10) "in_progress"
    (Some [Anomaly.mk "CLOSED"; Anomaly.mk "OPEN"; Anomaly.mk "TREATED"]).

Definition sample_window_untitled : MaintenanceWindow.t :=
  MaintenanceWindow.mk (Some "w3") "" (Js.TimeValue 0) (Js.TimeValue 10) "planned" None.

Definition dialog_filled : DialogState :=
  {| isOpen := true; isSubmitting := false; formData := form_S_R |}.

Definition sample_props : RexIntegrationProps :=
  {| maintenanceWindow := sample_window_with_anomalies;
     isCompleted := true;
     onRexCreated := Some callback_returns |}.


Definition sample_session : list (RexIntegrationProps * Z * option Action) :=
  [(sample_props, 11%Z, Some (InActions (ChangeSummary "S")));
   (sample_props, 11%Z, None);
   (sample_props, 12%Z, Some (InActions (ChangeRootCause "R")));
   (sample_props, 12%Z, Some (InActions (Submit 5 6)))].

Definition sample_session_trace : list Event :=
  [setFormData (QuickRexFormData.mk "S" "" "" "" "" "" medium technical);
   setFormData form_S_R;
   setIsSubmitting true;
   call_onRexCreated (newRex form_S_R 5 6);
   toast_success "REX created successfully!";
   setIsOpen false;
   setFormData emptyForm;
   setIsSubmitting false].

(** ** The model on concrete inputs *)

Example includes_inside : Js.includes "Pump overhaul went well" "overhaul" = true.
Proof. reflexivity. Qed.

Example includes_nothing_in_empty : Js.includes "" "a" = false.
Proof. reflexivity. Qed.

Example includes_missing : Js.includes "Valve check" "Pump" = false.
Proof. reflexivity. Qed.

Example Number_toString_time : Js.Number_toString 1700000000000 = "1700000000000".
Proof. reflexivity. Qed.

Example windowRexRecords_sample :
  windowRexRecords sample_records sample_window = [sample_rex_pump].
Proof. reflexivity. Qed.

Example lastRexDate_not_latest :
  lastRexDate_of [sample_rex_pump; sample_rex_valve] = Normal (Some (Js.TimeValue 3)).
Proof. reflexivity. Qed.

Example handleSubmit_callback_returns :
  handleSubmit (Some callback_returns) form_S_R 5 6
  = ([setIsSubmitting true; call_onRexCreated (newRex form_S_R 5 6);
      toast_success "REX created successfully!"; setIsOpen false;
      setFormData emptyForm; setIsSubmitting false], Normal tt).
Proof. reflexivity. Qed.

Example handleSubmit_callback_throws :
  handleSubmit (Some (fun _ => Throw CallbackError)) form_S_R 5 6
  = ([setIsSubmitting true; call_onRexCreated (newRex form_S_R 5 6);
      toast_error "Failed to create REX"; setIsSubmitting false], Normal tt).
Proof. reflexivity. Qed.

(** Without the optional prop (the dialog inside the banner) a valid
    submission closes the dialog and calls nothing. *)
Lemma handleSubmit_without_callback formData Date_now new_Date :
  missing_mandatory formData = false ->
  handleSubmit None formData Date_now new_Date
  = ([setIsSubmitting true; toast_success "REX created successfully!";
      setIsOpen false; setFormData emptyForm; setIsSubmitting false], Normal tt).
Proof. intros H. unfold handleSubmit. now rewrite H. Qed.

Example commit_after_success :
  commit dialog_without_summary (fst (handleSubmit (Some callback_returns) form_S_R 5 6))
  = initialDialogState.
Proof. reflexivity. Qed.

(** ** Properties of the JavaScript built-ins *)

Lemma prefix_spec (t s : string) :
  String.prefix t s = true <-> exists post, s = t +:+ post.
Proof.
  revert s; induction t as [|c t IH]; intros s.
  - destruct s; simpl; (split; [intros _; eauto | reflexivity]).
  - destruct s as [|d s]; simpl.
    + split; [discriminate | intros [post H]; discriminate].
    + destruct (Ascii.ascii_dec c d) as [->|Hne].
      * rewrite IH. split; intros [post H]; exists post.
        -- now rewrite H.
        -- now injection H.
      * split; [discriminate | intros [post H]; injection H; congruence].
Qed.

Lemma StringIndexOf_found (s t : string) (i : nat) :
  is_Some (Js.StringIndexOf i s t) <-> Js.Substring t s.
Proof.
  revert i; induction s as [|c s IH]; intros i; cbn [Js.StringIndexOf].
  - destruct (String.prefix t "") eqn:Hp.
    + split; [intros _ | intros _; eauto].
      apply prefix_spec in Hp as [post Hp]. now exists "", post.
    + split; [intros [n Hn]; discriminate |].
      intros ([|d pre] & post & H); [|discriminate].
      simpl in H. assert (String.prefix t "" = true) by (apply prefix_spec; eauto).
      congruence.
  - destruct (String.prefix t (String c s)) eqn:Hp.
    + split; [intros _ | intros _; eauto].
      apply prefix_spec in Hp as [post Hp]. now exists "", post.
    + rewrite IH. split.
      * intros (pre & post & ->). now exists (String c pre), post.
      * intros ([|d pre] & post & H).
        -- simpl in H.
           assert (String.prefix t (String c s) = true) by (apply prefix_spec; eauto).
           congruence.
        -- injection H as _ ->. now exists pre, post.
Qed.

Lemma includes_spec (s t : string) :
  Js.includes s t = true <-> Js.Substring t s.
Proof.
  rewrite <- (StringIndexOf_found s t 0). unfold Js.includes.
  destruct (Js.StringIndexOf 0 s t); split; intros H;
    try reflexivity; try discriminate; eauto.
  now destruct H.
Qed.

Lemma includes_empty (s : string) : Js.includes s "" = true.
Proof. apply includes_spec. now exists "", s. Qed.

Lemma or_default_empty (o : option string) : Js.or_default o "" = default "" o.
Proof. destruct o as [[|c s]|]; reflexivity. Qed.

Lemma truthy_false (s : string) : Js.truthy s = false <-> s = "".
Proof. destruct s; simpl; split; congruence. Qed.

Lemma Date_lt_earlier (d1 d2 : Js.Date) :
  Js.Date_lt d1 d2 = true <-> Js.earlier d1 d2.
Proof.
  unfold Js.earlier. destruct d1 as [a|], d2 as [b|]; simpl.
  - rewrite Z.ltb_lt. split.
    + intros H. now exists a, b.
    + intros (a' & b' & [= <-] & [= <-] & H). exact H.
  - split; [discriminate | intros (a' & b' & _ & [=] & _)].
  - split; [discriminate | intros (a' & b' & [=] & _)].
  - split; [discriminate | intros (a' & b' & [=] & _)].
Qed.

(** ** Records of a window *)

Lemma belongs_to_window_spec (W : MaintenanceWindow.t) (R : ReturnOfExperience.t) :
  belongs_to_window W R = true <->
  Js.Substring (MaintenanceWindow.title W) (ReturnOfExperience.summary R)
  \/ Js.Substring (default "" (MaintenanceWindow.id W)) (ReturnOfExperience.id R).
Proof.
  unfold belongs_to_window.
  now rewrite orb_true_iff, !includes_spec, or_default_empty.
Qed.

(** C1.  A record is among those kept for a window exactly when it is
    one of the given records and the window's title occurs in its
    summary or the window's id (the empty string when the window has
    none) occurs in its id; a window without an id keeps every record,
    so every record with a non-empty id. *)
Theorem filterByWindow_membership :
  forall (records : list ReturnOfExperience.t) (W : MaintenanceWindow.t)
         (R : ReturnOfExperience.t),
    (R ∈ windowRexRecords records W <->
     R ∈ records /\
     (Js.Substring (MaintenanceWindow.title W) (ReturnOfExperience.summary R)
      \/ Js.Substring (default "" (MaintenanceWindow.id W)) (ReturnOfExperience.id R)))
    /\ (forall title scheduleStart scheduleEnd status anomalies,
          windowRexRecords records
            (MaintenanceWindow.mk None title scheduleStart scheduleEnd status anomalies)
          = records).
Proof.
  intros records W R. split.
  - unfold windowRexRecords.
    rewrite !list_elem_of_In, filter_In, belongs_to_window_spec. tauto.
  - intros title s e st an. unfold windowRexRecords.
    apply forallb_filter_id, forallb_forall. intros x _.
    unfold belongs_to_window. simpl. rewrite includes_empty. apply orb_true_r.
Qed.

Lemma filter_sublist {A} (f : A -> bool) (l : list A) : sublist (List.filter f l) l.
Proof.
  induction l as [|x l IH]; simpl.
  - constructor.
  - destruct (f x); now constructor.
Qed.

(** C7.  With the record array and the window held in a store of
    objects, keeping the records of a window returns a newly allocated
    array whose elements are a subsequence, in the original order, of the
    elements of the given array; the given array, the window and every
    other object of the store are left as they were. *)
Theorem filterByWindow_subsequence_no_mutation :
  forall (h : gmap positive Obj) (records window : positive)
         (elements : list ReturnOfExperience.t) (W : MaintenanceWindow.t),
    h !! records = Some (ArrayObj elements) ->
    h !! window = Some (WindowObj W) ->
    exists A h',
      windowRexRecords_in h records window = Some (A, h')
      /\ h' !! A = Some (ArrayObj (windowRexRecords elements W))
      /\ sublist (windowRexRecords elements W) elements
      /\ h !! A = None
      /\ h' !! records = Some (ArrayObj elements)
      /\ h' !! window = Some (WindowObj W)
      /\ (forall k, k ∈ dom h -> h' !! k = h !! k).
Proof.
  intros h records window elements W Hr Hw.
  unfold windowRexRecords_in. rewrite Hr, Hw.
  set (A := fresh (dom h)).
  assert (HA : h !! A = None) by (apply not_elem_of_dom, is_fresh).
  exists A, (<[A := ArrayObj (List.filter (belongs_to_window W) elements)]> h).
  assert (Hkeep : forall k o, h !! k = Some o ->
            <[A := ArrayObj (List.filter (belongs_to_window W) elements)]> h !! k = Some o).
  { intros k o Hk. rewrite lookup_insert_ne; [exact Hk | congruence]. }
  repeat split; auto.
  - apply lookup_insert_eq.
  - apply filter_sublist.
  - intros k [o Hk]%elem_of_dom. rewrite Hk. now apply Hkeep.
Qed.

Lemma filterByWindow_subsequence_no_mutation_witness :
  exists A h',
    windowRexRecords_in sample_store 1%positive 2%positive = Some (A, h')
    /\ h' !! A = Some (ArrayObj (windowRexRecords sample_records sample_window))
    /\ sublist (windowRexRecords sample_records sample_window) sample_records
    /\ sample_store !! A = None
    /\ h' !! 1%positive = Some (ArrayObj sample_records)
    /\ h' !! 2%positive = Some (WindowObj sample_window)
    /\ (forall k, k ∈ dom sample_store -> h' !! k = sample_store !! k).
Proof.
  apply (filterByWindow_subsequence_no_mutation
           sample_store 1%positive 2%positive sample_records sample_window).
  - reflexivity.
  - reflexivity.
Defined.

(** ** The last record's date *)

Lemma lookup_last {A} (l : list A) : l !! (length l - 1)%nat = last l.
Proof.
  induction l as [|x [|y l] IH]; try reflexivity.
  change (last (x :: y :: l)) with (last (y :: l)). rewrite <- IH.
  simpl. now rewrite Nat.sub_0_r.
Qed.

(** C8.  The date shown is the [createdAt] of the last record in the
    order given, whatever the dates of the records before it, and there
    is none when no record is given. *)
Theorem lastRecordTimestamp_last :
  forall (matchingRecords : list ReturnOfExperience.t),
    lastRexDate_of matchingRecords
      = Normal (ReturnOfExperience.createdAt <$> last matchingRecords)
    /\ lastRexDate_of [] = Normal None
    /\ (forall (rex : ReturnOfExperience.t),
          lastRexDate_of (matchingRecords ++ [rex])
            = Normal (Some (ReturnOfExperience.createdAt rex))).
Proof.
  assert (H : forall l, lastRexDate_of l = Normal (ReturnOfExperience.createdAt <$> last l)).
  { intros l. unfold lastRexDate_of. rewrite lookup_last.
    destruct l as [|x l]; [reflexivity|].
    change (0 <? length (x :: l))%nat with true. cbv iota.
    destruct (last (x :: l)) eqn:E; [reflexivity|].
    apply last_None in E. discriminate. }
  intros l. split; [apply H|]. split; [reflexivity|].
  intros rex. now rewrite H, last_snoc.
Qed.

(** ** The opportunity banner *)

(** C3.  The banner is shown exactly when the window is completed or
    its scheduled end is earlier than the current time, and it has at
    least one anomaly; with no anomalies field or an empty one it is
    never shown. *)
Theorem isOpportunity_iff :
  forall (window : MaintenanceWindow.t) (currentTime : Z),
    (isOpportunity window currentTime = true <->
     (MaintenanceWindow.status window = "completed"
      \/ Js.earlier (MaintenanceWindow.scheduleEnd window) (Js.TimeValue currentTime))
     /\ (exists a rest, MaintenanceWindow.anomalies window = Some (a :: rest)))
    /\ (forall id title scheduleStart scheduleEnd status,
          isOpportunity
            (MaintenanceWindow.mk id title scheduleStart scheduleEnd status None)
            currentTime = false
          /\ isOpportunity
               (MaintenanceWindow.mk id title scheduleStart scheduleEnd status (Some []))
               currentTime = false).
Proof.
  intros window currentTime. split.
  - unfold isOpportunity, RexOpportunityBanner, isCompleted_of, hasSignificantAnomalies.
    rewrite <- Date_lt_earlier, <- String.eqb_eq, <- orb_true_iff.
    set (c := (_ =? _) || Js.Date_lt _ _).
    destruct c, (MaintenanceWindow.anomalies window) as [[|a rest]|]; simpl;
      (split; [try discriminate; intros _; eauto
              | try reflexivity; intros [Hc (a' & rest' & E)]; discriminate]).
  - intros id title s e st.
    unfold isOpportunity, RexOpportunityBanner, hasSignificantAnomalies. simpl.
    now rewrite !orb_true_r.
Qed.

(** ** Resolved anomalies *)

Lemma is_resolved_spec (a : Anomaly.t) : is_resolved a = true <-> Resolved a.
Proof. unfold is_resolved, Resolved. now rewrite orb_true_iff, !String.eqb_eq. Qed.

Lemma length_filter_resolved (l : list Anomaly.t) :
  length (List.filter is_resolved l) = count_resolved l.
Proof.
  induction l as [|a l IH]; simpl; [reflexivity|].
  destruct (is_resolved a) eqn:E, (decide (Resolved a)) as [H|H]; simpl; rewrite ?IH; auto.
  - apply is_resolved_spec in E. contradiction.
  - apply is_resolved_spec in H. congruence.
Qed.

(** C6.  The count shown is the number of the window's anomalies whose
    status is CLOSED or TREATED, 0 when the window has no anomalies
    field; for statuses CLOSED, OPEN, TREATED it is 2. *)
Theorem resolvedAnomalyCount_spec :
  forall (window : MaintenanceWindow.t),
    resolvedAnomalyCount window
      = match MaintenanceWindow.anomalies window with
        | Some anomalies => count_resolved anomalies
        | None => 0%nat
        end
    /\ (forall id title scheduleStart scheduleEnd status,
          resolvedAnomalyCount
            (MaintenanceWindow.mk id title scheduleStart scheduleEnd status
               (Some [Anomaly.mk "CLOSED"; Anomaly.mk "OPEN"; Anomaly.mk "TREATED"]))
          = 2%nat).
Proof.
  intros window. split.
  - unfold resolvedAnomalyCount, resolvedAnomalies.
    destruct (MaintenanceWindow.anomalies window) as [l|]; simpl; [|reflexivity].
    apply length_filter_resolved.
  - reflexivity.
Qed.

(** ** Submitting the quick form *)

Lemma missing_mandatory_spec (formData : QuickRexFormData.t) :
  missing_mandatory formData = true <->
  QuickRexFormData.summary formData = "" \/ QuickRexFormData.rootCause formData = "".
Proof.
  unfold missing_mandatory.
  now rewrite orb_true_iff, !negb_true_iff, !truthy_false.
Qed.

Lemma missing_mandatory_false (formData : QuickRexFormData.t) :
  QuickRexFormData.summary formData <> "" ->
  QuickRexFormData.rootCause formData <> "" ->
  missing_mandatory formData = false.
Proof.
  intros Hs Hr. destruct (missing_mandatory formData) eqn:E; [|reflexivity].
  apply missing_mandatory_spec in E. tauto.
Qed.

(** What a refused submission does: one error toast, nothing else. *)
Lemma handleSubmit_refused onRexCreated formData Date_now new_Date :
  missing_mandatory formData = true ->
  handleSubmit onRexCreated formData Date_now new_Date
  = ([toast_error "Please fill in the summary and root cause analysis"], Normal tt).
Proof. intros H. unfold handleSubmit. now rewrite H. Qed.


(** C2.  Submission is refused with the validation error exactly when
    the summary or the root cause is the empty string; so it is for an
    empty summary with root cause X and for an empty root cause with
    summary X. *)
Theorem buildRecord_refuses_empty :
  forall (formData : QuickRexFormData.t) (Date_now new_Date : Z),
    (buildRecord formData Date_now new_Date = inl MandatoryFieldsMissing <->
     QuickRexFormData.summary formData = "" \/ QuickRexFormData.rootCause formData = "")
    /\ (forall c p l r i k,
          buildRecord (QuickRexFormData.mk "" "X" c p l r i k) Date_now new_Date
            = inl MandatoryFieldsMissing
          /\ buildRecord (QuickRexFormData.mk "X" "" c p l r i k) Date_now new_Date
               = inl MandatoryFieldsMissing).
Proof.
  intros formData Date_now new_Date. split.
  - rewrite <- missing_mandatory_spec. unfold buildRecord.
    destruct (missing_mandatory formData); split; congruence.
  - intros. split; reflexivity.
Qed.

(** A summary made of one space passes the check of line 96: the record
    is built, although the field is whitespace-only. *)
Lemma buildRecord_accepts_whitespace :
  (Js.whitespace_only (QuickRexFormData.summary form_blank_summary) = true
   \/ Js.whitespace_only (QuickRexFormData.rootCause form_blank_summary) = true)
  /\ buildRecord form_blank_summary 0 0 = inr (newRex form_blank_summary 0 0)
  /\ buildRecord form_blank_summary 0 0 <> inl MandatoryFieldsMissing.
Proof.
  split; [left; reflexivity|]. split; [reflexivity | discriminate].
Qed.

(** C4.  With a non-empty summary and root cause the record is built:
    no attachments, [createdAt] the time of [new Date()], an id made of
    "rex_" and the decimal digits of [Date.now()], and [createdBy] the
    fixed string "Current User". *)
Theorem buildRecord_success :
  forall (formData : QuickRexFormData.t) (Date_now new_Date : Z),
    QuickRexFormData.summary formData <> "" ->
    QuickRexFormData.rootCause formData <> "" ->
    exists record,
      buildRecord formData Date_now new_Date = inr record
      /\ ReturnOfExperience.attachments record = []
      /\ ReturnOfExperience.createdAt record = Js.TimeValue new_Date
      /\ ReturnOfExperience.id record = "rex_" +:+ Js.Number_toString Date_now
      /\ String.prefix "rex_" (ReturnOfExperience.id record) = true
      /\ ReturnOfExperience.createdBy record = "Current User"
      /\ ReturnOfExperience.summary record = QuickRexFormData.summary formData
      /\ ReturnOfExperience.rootCause record = QuickRexFormData.rootCause formData.
Proof.
  intros formData Date_now new_Date Hs Hr.
  exists (newRex formData Date_now new_Date). unfold buildRecord.
  rewrite (missing_mandatory_false _ Hs Hr).
  repeat split.
  apply prefix_spec. now exists (Js.Number_toString Date_now).
Qed.

Lemma buildRecord_success_witness :
  exists record,
    buildRecord form_S_R 1700000000000 1700000000000 = inr record
    /\ ReturnOfExperience.attachments record = []
    /\ ReturnOfExperience.createdAt record = Js.TimeValue 1700000000000
    /\ ReturnOfExperience.id record = "rex_" +:+ Js.Number_toString 1700000000000
    /\ String.prefix "rex_" (ReturnOfExperience.id record) = true
    /\ ReturnOfExperience.createdBy record = "Current User"
    /\ ReturnOfExperience.summary record = QuickRexFormData.summary form_S_R
    /\ ReturnOfExperience.rootCause record = QuickRexFormData.rootCause form_S_R.
Proof.
  apply (buildRecord_success form_S_R 1700000000000 1700000000000); discriminate.
Defined.

(** No identifier comes from the caller: a submission made on behalf of
    a user called alice yields a record created by "Current User". *)
Lemma buildRecord_createdBy_not_caller :
  ~ (forall (currentUser : string) (record : ReturnOfExperience.t),
       buildRecord form_S_R 5 5 = inr record ->
       ReturnOfExperience.createdBy record = currentUser).
Proof.
  intros H. specialize (H "alice" _ eq_refl). discriminate.
Qed.

(** C5.  A submission with an empty summary or root cause changes
    nothing: the dialog state after it is the state before it (form
    contents and open flag included), the only effect is the error
    toast, and the callback is not called. *)
Theorem validation_failure_atomic :
  forall (window : MaintenanceWindow.t) (onRexCreated : option Callback)
         (st : DialogState) (Date_now new_Date : Z),
    QuickRexFormData.summary (formData st) = ""
    \/ QuickRexFormData.rootCause (formData st) = "" ->
    let result := dialog_step window onRexCreated st (Submit Date_now new_Date) in
    fst result = st
    /\ formData (fst result) = formData st
    /\ isOpen (fst result) = isOpen st
    /\ snd result = [toast_error "Please fill in the summary and root cause analysis"]
    /\ callback_calls (snd result) = []
    /\ closes_dialog (snd result) = false.
Proof.
  intros window onRexCreated st Date_now new_Date H%missing_mandatory_spec.
  unfold dialog_step, dialog_handler. rewrite (handleSubmit_refused _ _ _ _ H).
  repeat split.
Qed.

Lemma validation_failure_atomic_witness :
  let result :=
    dialog_step sample_window (Some callback_returns) dialog_without_summary (Submit 7 7) in
  fst result = dialog_without_summary
  /\ formData (fst result) = formData dialog_without_summary
  /\ isOpen (fst result) = isOpen dialog_without_summary
  /\ snd result = [toast_error "Please fill in the summary and root cause analysis"]
  /\ callback_calls (snd result) = []
  /\ closes_dialog (snd result) = false.
Proof.
  apply (validation_failure_atomic
           sample_window (Some callback_returns) dialog_without_summary 7 7).
  left. reflexivity.
Defined.



(** ** The record store of the component *)

Lemma step_rexRecords (props : RexIntegrationProps) (st : RexIntegrationState) (a : Action) :
  rexRecords (fst (step props st a)) = rexRecords st.
Proof.
  destruct a as [a|a]; unfold step.
  - now destruct (dialog_step _ None _ a).
  - now destruct (dialog_step _ (onRexCreated props) _ a).
Qed.

Lemma run_rexRecords (session : list (RexIntegrationProps * Action)) :
  forall st, rexRecords (run st session) = rexRecords st.
Proof.
  induction session as [|[props a] rest IH]; intros st; simpl; [reflexivity|].
  now rewrite IH, step_rexRecords.
Qed.

(** C10.  The component starts with no records and no action on either
    dialog, submissions included, adds one; so after any session, and for
    any props, the render reports 0 records and no last date. *)
Theorem rexRecords_always_empty :
  forall (session : list (RexIntegrationProps * Action))
         (props : RexIntegrationProps) (now : Z),
    rexRecords initialState = []
    /\ rexRecords (run initialState session) = []
    /\ exists view,
        RexIntegration props (run initialState session) now = Normal view
        /\ rexCount (summaryCard view) = 0%nat
        /\ lastRexDate (summaryCard view) = None.
Proof.
  intros session props now.
  pose proof (run_rexRecords session initialState) as H. simpl in H.
  split; [reflexivity|]. split; [exact H|].
  unfold RexIntegration. rewrite H. simpl. eexists. repeat split.
Qed.

(** ** What a submission leaves behind *)

(** The whole trace of an accepted submission, with or without a
    callback. *)
Lemma handleSubmit_trace (onRexCreated : option Callback) formData Date_now new_Date :
  missing_mandatory formData = false ->
  fst (handleSubmit onRexCreated formData Date_now new_Date)
  = [setIsSubmitting true]
    ++ match onRexCreated with
       | Some _ => [call_onRexCreated (newRex formData Date_now new_Date)]
       | None => []
       end
    ++ (if returns_normally onRexCreated (newRex formData Date_now new_Date)
        then [toast_success "REX created successfully!";
              setIsOpen false; setFormData emptyForm]
        else [toast_error "Failed to create REX"])
    ++ [setIsSubmitting false].
Proof.
  intros H. unfold handleSubmit. rewrite H.
  destruct onRexCreated as [callback|]; cbn; [|reflexivity].
  now destruct (callback _).
Qed.

(** X1.  An accepted submission whose callback returns (or that has no
    callback) puts the dialog back in its initial state, closed with an
    empty form and the button enabled, whatever state it was in, and
    shows the success toast after the call. *)
Theorem submit_success_resets_dialog :
  forall (window : MaintenanceWindow.t) (onRexCreated : option Callback)
         (st : DialogState) (Date_now new_Date : Z),
    QuickRexFormData.summary (formData st) <> "" ->
    QuickRexFormData.rootCause (formData st) <> "" ->
    returns_normally onRexCreated (newRex (formData st) Date_now new_Date) = true ->
    dialog_step window onRexCreated st (Submit Date_now new_Date)
    = (initialDialogState,
       [setIsSubmitting true]
       ++ match onRexCreated with
          | Some _ => [call_onRexCreated (newRex (formData st) Date_now new_Date)]
          | None => []
          end
       ++ [toast_success "REX created successfully!"; setIsOpen false;
           setFormData emptyForm; setIsSubmitting false]).
Proof.
  intros window onRexCreated st Date_now new_Date Hs Hr Hn.
  unfold dialog_step, dialog_handler.
  rewrite (handleSubmit_trace _ _ _ _ (missing_mandatory_false _ Hs Hr)), Hn.
  destruct onRexCreated; reflexivity.
Qed.

Lemma submit_success_resets_dialog_witness :
  dialog_step sample_window (Some callback_returns) dialog_filled (Submit 5 6)
  = (initialDialogState,
     [setIsSubmitting true]
     ++ [call_onRexCreated (newRex (formData dialog_filled) 5 6)]
     ++ [toast_success "REX created successfully!"; setIsOpen false;
         setFormData emptyForm; setIsSubmitting false]).
Proof.
  apply (submit_success_resets_dialog
           sample_window (Some callback_returns) dialog_filled 5 6).
  - discriminate.
  - discriminate.
  - reflexivity.
Defined.

(** X2.  When the callback throws, the error is caught: the user sees
    "Failed to create REX" and no success toast, the dialog keeps its
    open flag and everything typed, and the button is enabled again. *)
Theorem submit_callback_throws_keeps_form :
  forall (window : MaintenanceWindow.t) (callback : Callback)
         (st : DialogState) (Date_now new_Date : Z) (e : Error),
    QuickRexFormData.summary (formData st) <> "" ->
    QuickRexFormData.rootCause (formData st) <> "" ->
    callback (newRex (formData st) Date_now new_Date) = Throw e ->
    dialog_step window (Some callback) st (Submit Date_now new_Date)
    = ({| isOpen := isOpen st; isSubmitting := false; formData := formData st |},
       [setIsSubmitting true;
        call_onRexCreated (newRex (formData st) Date_now new_Date);
        toast_error "Failed to create REX";
        setIsSubmitting false])
    /\ snd (handleSubmit (Some callback) (formData st) Date_now new_Date) = Normal tt.
Proof.
  intros window callback st Date_now new_Date e Hs Hr He.
  pose proof (missing_mandatory_false _ Hs Hr) as Hm.
  split.
  - unfold dialog_step, dialog_handler.
    rewrite (handleSubmit_trace _ _ _ _ Hm). cbn. now rewrite He.
  - unfold handleSubmit. rewrite Hm. cbn. now rewrite He.
Qed.

Lemma submit_callback_throws_keeps_form_witness :
  dialog_step sample_window (Some callback_throws) dialog_filled (Submit 5 6)
  = ({| isOpen := isOpen dialog_filled; isSubmitting := false;
        formData := formData dialog_filled |},
     [setIsSubmitting true;
      call_onRexCreated (newRex (formData dialog_filled) 5 6);
      toast_error "Failed to create REX";
      setIsSubmitting false])
  /\ snd (handleSubmit (Some callback_throws) (formData dialog_filled) 5 6) = Normal tt.
Proof.
  apply (submit_callback_throws_keeps_form
           sample_window callback_throws dialog_filled 5 6 CallbackError).
  - discriminate.
  - discriminate.
  - reflexivity.
Defined.

(** Which calls a dialog action can make. *)
Lemma dialog_step_calls window onRexCreated st a rex :
  In rex (callback_calls (snd (dialog_step window onRexCreated st a))) ->
  exists Date_now new_Date,
    a = Submit Date_now new_Date
    /\ missing_mandatory (formData st) = false
    /\ rex = newRex (formData st) Date_now new_Date
    /\ is_Some onRexCreated.
Proof.
  unfold dialog_step. cbn [snd].
  destruct a as [o|v|v|v|v|v|v| | |t d]; cbn; try tauto.
  destruct (missing_mandatory (formData st)) eqn:Hm.
  - rewrite (handleSubmit_refused _ _ _ _ Hm). cbn. tauto.
  - rewrite (handleSubmit_trace _ _ _ _ Hm).
    destruct onRexCreated as [callback|]; cbn.
    + destruct (callback _); cbn; intros [<-|[]]; exists t, d; eauto.
    + tauto.
Qed.

(** X3.  The dialog inside the opportunity banner has no callback: a
    valid submission there shows the success toast, closes and empties
    the dialog, and hands the record to no one; nor does any other action
    on that dialog call the component's callback. *)
Theorem banner_dialog_drops_record :
  forall (props : RexIntegrationProps) (st : RexIntegrationState),
    (forall a, callback_calls (snd (step props st (InBanner a))) = [])
    /\ (forall Date_now new_Date,
          step props st (InBanner (Submit Date_now new_Date))
          = if missing_mandatory (formData (bannerDialog st))
            then ({| rexRecords := rexRecords st;
                     bannerDialog := bannerDialog st;
                     actionsDialog := actionsDialog st |},
                  [toast_error "Please fill in the summary and root cause analysis"])
            else ({| rexRecords := rexRecords st;
                     bannerDialog := initialDialogState;
                     actionsDialog := actionsDialog st |},
                  [setIsSubmitting true; toast_success "REX created successfully!";
                   setIsOpen false; setFormData emptyForm; setIsSubmitting false])).
Proof.
  intros props st. split.
  - intros a. unfold step.
    destruct (dialog_step (maintenanceWindow props) None (bannerDialog st) a)
      as [d trace] eqn:E. cbn [snd].
    destruct (callback_calls trace) as [|rex rest] eqn:Hc; [reflexivity|].
    assert (Hin : In rex (callback_calls
              (snd (dialog_step (maintenanceWindow props) None (bannerDialog st) a)))).
    { rewrite E. cbn [snd]. rewrite Hc. now left. }
    apply dialog_step_calls in Hin as (t & d' & _ & _ & _ & [x Hx]). discriminate.
  - intros t d. unfold step, dialog_step, dialog_handler.
    destruct (missing_mandatory (formData (bannerDialog st))) eqn:Hm.
    + rewrite (handleSubmit_refused _ _ _ _ Hm). cbn. now destruct (bannerDialog st).
    + now rewrite (handleSubmit_without_callback _ _ _ Hm).
Qed.

(** ** Invariants of a session *)

Lemma dialog_step_isSubmitting window onRexCreated st a :
  isSubmitting st = false ->
  isSubmitting (fst (dialog_step window onRexCreated st a)) = false.
Proof.
  intros H. unfold dialog_step. cbn [fst].
  destruct a as [o|v|v|v|v|v|v| | |t d]; cbn; try exact H.
  destruct (missing_mandatory (formData st)) eqn:Hm.
  - now rewrite (handleSubmit_refused _ _ _ _ Hm).
  - rewrite (handleSubmit_trace _ _ _ _ Hm).
    destruct onRexCreated as [callback|]; cbn; [|reflexivity].
    now destruct (callback _).
Qed.

Lemma step_isSubmitting props st a :
  isSubmitting (bannerDialog st) = false ->
  isSubmitting (actionsDialog st) = false ->
  isSubmitting (bannerDialog (fst (step props st a))) = false
  /\ isSubmitting (actionsDialog (fst (step props st a))) = false.
Proof.
  intros Hb Ha. destruct a as [a|a]; unfold step.
  - pose proof (dialog_step_isSubmitting (maintenanceWindow props) None _ a Hb) as H.
    destruct (dialog_step _ None _ a). now split.
  - pose proof (dialog_step_isSubmitting (maintenanceWindow props)
                  (onRexCreated props) _ a Ha) as H.
    destruct (dialog_step _ (onRexCreated props) _ a). now split.
Qed.

(** X4.  Between two actions [isSubmitting] is never true: the handler
    sets it and clears it within the same run, so after any session the
    submit button of either dialog is enabled and reads "Create Quick
    REX". *)
Theorem isSubmitting_never_left_set :
  forall (session : list (RexIntegrationProps * Action)),
    isSubmitting (bannerDialog (run initialState session)) = false
    /\ isSubmitting (actionsDialog (run initialState session)) = false.
Proof.
  intros session.
  assert (H : forall st,
             isSubmitting (bannerDialog st) = false ->
             isSubmitting (actionsDialog st) = false ->
             isSubmitting (bannerDialog (run st session)) = false
             /\ isSubmitting (actionsDialog (run st session)) = false).
  { induction session as [|[props a] rest IH]; intros st Hb Ha; simpl; [now split|].
    destruct (step_isSubmitting props st a Hb Ha). now apply IH. }
  now apply H.
Qed.

Lemma with_field_untouched fd a :
  untouched_fields_empty fd -> untouched_fields_empty (with_field fd a).
Proof. unfold untouched_fields_empty. destruct a; simpl; tauto. Qed.

Lemma dialog_step_untouched window onRexCreated st a :
  untouched_fields_empty (formData st) ->
  untouched_fields_empty (formData (fst (dialog_step window onRexCreated st a))).
Proof.
  intros H. unfold dialog_step. cbn [fst].
  destruct a as [o|v|v|v|v|v|v| | |t d]; cbn; try exact H;
    try (apply (with_field_untouched _ _ H)).
  destruct (missing_mandatory (formData st)) eqn:Hm.
  - now rewrite (handleSubmit_refused _ _ _ _ Hm).
  - rewrite (handleSubmit_trace _ _ _ _ Hm).
    destruct onRexCreated as [callback|]; cbn.
    + destruct (callback _); cbn; [now split | exact H].
    + now split.
Qed.

Lemma step_calls props st a rex :
  In rex (callback_calls (snd (step props st a))) ->
  exists Date_now new_Date,
    a = InActions (Submit Date_now new_Date)
    /\ missing_mandatory (formData (actionsDialog st)) = false
    /\ rex = newRex (formData (actionsDialog st)) Date_now new_Date
    /\ is_Some (onRexCreated props).
Proof.
  destruct a as [a|a]; unfold step.
  - pose proof (dialog_step_calls (maintenanceWindow props) None (bannerDialog st) a rex) as H.
    destruct (dialog_step _ None _ a). cbn [snd] in *.
    intros Hin. destruct (H Hin) as (t0 & d0 & _ & _ & _ & [x Hx]). discriminate.
  - pose proof (dialog_step_calls (maintenanceWindow props) (onRexCreated props)
                  (actionsDialog st) a rex) as H.
    destruct (dialog_step _ (onRexCreated props) _ a). cbn [snd] in *.
    intros Hin. destruct (H Hin) as (t0 & d0 & -> & Hm & -> & Hs). eauto 10.
Qed.

Lemma callback_calls_app tr1 tr2 :
  callback_calls (tr1 ++ tr2) = callback_calls tr1 ++ callback_calls tr2.
Proof.
  induction tr1 as [|e tr1 IH]; [reflexivity|].
  destruct e; simpl; now rewrite ?IH.
Qed.

(** X5.  No input of the dialog edits [preventiveAction] or
    [recommendations]: after any session both fields of both forms are
    still empty, and every record handed to the callback during the
    session has them empty. *)
Theorem untouched_fields_stay_empty :
  forall (session : list (RexIntegrationProps * Action)),
    untouched_fields_empty (formData (bannerDialog (run initialState session)))
    /\ untouched_fields_empty (formData (actionsDialog (run initialState session)))
    /\ (forall rex, In rex (callback_calls (run_trace initialState session)) ->
          ReturnOfExperience.preventiveAction rex = ""
          /\ ReturnOfExperience.recommendations rex = "").
Proof.
  intros session.
  assert (H : forall st,
             untouched_fields_empty (formData (bannerDialog st)) ->
             untouched_fields_empty (formData (actionsDialog st)) ->
             untouched_fields_empty (formData (bannerDialog (run st session)))
             /\ untouched_fields_empty (formData (actionsDialog (run st session)))
             /\ (forall rex, In rex (callback_calls (run_trace st session)) ->
                   ReturnOfExperience.preventiveAction rex = ""
                   /\ ReturnOfExperience.recommendations rex = "")).
  { induction session as [|[props a] rest IH]; intros st Hb Ha; simpl.
    - split; [exact Hb|]. split; [exact Ha|]. intros rex [].
    - assert (Hb' : untouched_fields_empty (formData (bannerDialog (fst (step props st a))))
                    /\ untouched_fields_empty
                         (formData (actionsDialog (fst (step props st a))))).
      { destruct a as [a|a]; unfold step.
        + pose proof (dialog_step_untouched (maintenanceWindow props) None _ a Hb) as H.
          destruct (dialog_step _ None _ a). now split.
        + pose proof (dialog_step_untouched (maintenanceWindow props)
                        (onRexCreated props) _ a Ha) as H.
          destruct (dialog_step _ (onRexCreated props) _ a). now split. }
      destruct Hb' as [Hb' Ha'].
      destruct (IH _ Hb' Ha') as (IH1 & IH2 & IH3).
      split; [exact IH1|]. split; [exact IH2|]. intros rex H.
      rewrite callback_calls_app, in_app_iff in H. destruct H as [H|H].
      + apply step_calls in H as (t & d & _ & _ & -> & _). exact Ha.
      + now apply IH3. }
  apply H; now split.
Qed.

(** X6.  Whatever state a session starts from and whatever is done in
    it, every record handed to the callback has a non-empty summary and
    root cause, no attachments, "Current User" as author, an id that
    starts with "rex_" and a valid creation date. *)
Theorem handed_records_are_valid :
  forall (st : RexIntegrationState) (session : list (RexIntegrationProps * Action))
         (rex : ReturnOfExperience.t),
    In rex (callback_calls (run_trace st session)) ->
    ReturnOfExperience.summary rex <> ""
    /\ ReturnOfExperience.rootCause rex <> ""
    /\ ReturnOfExperience.attachments rex = []
    /\ ReturnOfExperience.createdBy rex = "Current User"
    /\ String.prefix "rex_" (ReturnOfExperience.id rex) = true
    /\ exists t, ReturnOfExperience.createdAt rex = Js.TimeValue t.
Proof.
  intros st session; revert st.
  induction session as [|[props a] rest IH]; intros st rex; simpl; [intros []|].
  rewrite callback_calls_app, in_app_iff. intros [H|H]; [|now apply (IH _ _ H)].
  apply step_calls in H as (t & d & _ & Hm & -> & _).
  assert (Hn : ~ (QuickRexFormData.summary (formData (actionsDialog st)) = ""
                  \/ QuickRexFormData.rootCause (formData (actionsDialog st)) = "")).
  { rewrite <- missing_mandatory_spec. congruence. }
  simpl. repeat split; try tauto; eauto.
  apply prefix_spec. now exists (Js.Number_toString t).
Qed.

Lemma handed_records_are_valid_witness :
  ReturnOfExperience.summary (newRex form_S_R 5 6) <> ""
  /\ ReturnOfExperience.rootCause (newRex form_S_R 5 6) <> ""
  /\ ReturnOfExperience.attachments (newRex form_S_R 5 6) = []
  /\ ReturnOfExperience.createdBy (newRex form_S_R 5 6) = "Current User"
  /\ String.prefix "rex_" (ReturnOfExperience.id (newRex form_S_R 5 6)) = true
  /\ exists t, ReturnOfExperience.createdAt (newRex form_S_R 5 6) = Js.TimeValue t.
Proof.
  apply (handed_records_are_valid
           {| rexRecords := []; bannerDialog := initialDialogState;
              actionsDialog := dialog_filled |}
           [({| maintenanceWindow := sample_window; isCompleted := true;
                onRexCreated := Some callback_returns |}, InActions (Submit 5 6))]).
  simpl. left. reflexivity.
Defined.

(** X7.  The callback is called at most once per click on the submit
    button of the dialog under the summary card, over a whole session. *)
Theorem calls_bounded_by_submit_clicks :
  forall (st : RexIntegrationState) (session : list (RexIntegrationProps * Action)),
    length (callback_calls (run_trace st session)) <= submit_clicks session.
Proof.
  intros st session; revert st.
  induction session as [|[props a] rest IH]; intros st; simpl; [lia|].
  rewrite callback_calls_app, length_app.
  specialize (IH (fst (step props st a))).
  assert (Hstep : length (callback_calls (snd (step props st a)))
                  <= match a with InActions (Submit _ _) => 1 | _ => 0 end).
  { destruct (callback_calls (snd (step props st a))) as [|rex l] eqn:E; [simpl; lia|].
    assert (Hin : In rex (callback_calls (snd (step props st a)))) by (rewrite E; now left).
    apply step_calls in Hin as (t & d & -> & Hm & _ & [callback Hc]).
    revert E. unfold step, dialog_step, dialog_handler. cbn [snd fst].
    rewrite (handleSubmit_trace _ _ _ _ Hm), Hc. cbn.
    destruct (callback _); cbn; intros [= <- <-]; simpl; lia. }
  destruct a as [a|[ | | | | | | | | |]]; simpl in *; lia.
Qed.

(** ** Identifiers *)

Lemma to_int_not_nil (n : Z) :
  Z.to_int n <> Decimal.Pos Decimal.Nil /\ Z.to_int n <> Decimal.Neg Decimal.Nil.
Proof.
  destruct n as [|p|p]; simpl; split; try discriminate;
    intros [= H]; now apply (Unsigned.to_uint_nonnil p).
Qed.

Lemma Number_toString_inj (a b : Z) :
  Js.Number_toString a = Js.Number_toString b -> a = b.
Proof.
  unfold Js.Number_toString. intros H.
  apply DecimalZ.to_int_inj.
  destruct (to_int_not_nil a) as [Ha1 Ha2], (to_int_not_nil b) as [Hb1 Hb2].
  pose proof (NilZero.isi _ Ha1 Ha2) as Ea.
  pose proof (NilZero.isi _ Hb1 Hb2) as Eb.
  rewrite H in Ea. congruence.
Qed.

(** X8.  Two records get the same id exactly when [Date.now()] gave the
    same millisecond for both, whatever was typed and whatever the
    creation dates: ids tell records apart only across milliseconds. *)
Theorem newRex_id_collides_iff_same_millisecond :
  forall (fd1 fd2 : QuickRexFormData.t) (Date_now1 Date_now2 new_Date1 new_Date2 : Z),
    ReturnOfExperience.id (newRex fd1 Date_now1 new_Date1)
    = ReturnOfExperience.id (newRex fd2 Date_now2 new_Date2)
    <-> Date_now1 = Date_now2.
Proof.
  intros. simpl. split.
  - intros [= H]. now apply Number_toString_inj.
  - now intros ->.
Qed.

(** ** More on the banner and the anomaly counts *)

(** X9.  For a given window the banner only ever appears with time:
    shown at one instant, it is shown at every later one. *)
Theorem opportunity_persists :
  forall (window : MaintenanceWindow.t) (t t' : Z),
    isOpportunity window t = true ->
    (t <= t')%Z ->
    isOpportunity window t' = true.
Proof.
  intros window t t'.
  unfold isOpportunity, RexOpportunityBanner, isCompleted_of.
  destruct (String.eqb _ _); [trivial|].
  destruct (MaintenanceWindow.scheduleEnd window) as [e|]; simpl; [|trivial].
  destruct (e <? t)%Z eqn:E; simpl; [|discriminate].
  intros H Hle. apply Z.ltb_lt in E.
  assert (E' : (e <? t')%Z = true) by (apply Z.ltb_lt; lia).
  now rewrite E'.
Qed.

Lemma opportunity_persists_witness :
  isOpportunity sample_window_with_anomalies 11 = true
  /\ isOpportunity sample_window_with_anomalies 500 = true.
Proof.
  split; [reflexivity|].
  apply (opportunity_persists sample_window_with_anomalies 11 500).
  - reflexivity.
  - lia.
Defined.

Lemma filter_length_all {A} (f : A -> bool) (l : list A) :
  length (List.filter f l) = length l <-> Forall (fun x => f x = true) l.
Proof.
  induction l as [|x l IH]; simpl.
  - split; [constructor | reflexivity].
  - pose proof (filter_length_le f l) as Hle.
    destruct (f x) eqn:E; simpl.
    + split.
      * intros [= H]. constructor; [exact E | now apply IH].
      * intros H. inversion H; subst. f_equal. now apply IH.
    + split; [lia|]. intros H. inversion H; congruence.
Qed.

(** X10.  The anomalies counted as resolved are, in order, anomalies of
    the window, each CLOSED or TREATED; their number reaches the number
    of anomalies exactly when every anomaly is CLOSED or TREATED. *)
Theorem resolvedAnomalies_sound_and_complete :
  forall (window : MaintenanceWindow.t),
    sublist (resolvedAnomalies window) (default [] (MaintenanceWindow.anomalies window))
    /\ Forall Resolved (resolvedAnomalies window)
    /\ (resolvedAnomalyCount window
          = length (default [] (MaintenanceWindow.anomalies window))
        <-> Forall Resolved (default [] (MaintenanceWindow.anomalies window))).
Proof.
  intros window. unfold resolvedAnomalyCount, resolvedAnomalies.
  destruct (MaintenanceWindow.anomalies window) as [l|]; simpl.
  - split; [apply filter_sublist|]. split.
    + apply List.Forall_forall. intros a [_ H]%filter_In. now apply is_resolved_spec.
    + rewrite filter_length_all. split; intros H; eapply Forall_impl; try exact H;
        intros a; apply is_resolved_spec.
  - repeat split; constructor.
Qed.

(** X11.  When the banner is shown, the number of anomalies it reports
    is the length of the window's anomaly list, at least 1, and never
    less than the resolved count shown in the dialog it contains. *)
Theorem banner_reports_all_anomalies :
  forall (window : MaintenanceWindow.t) (now : Z) (view : BannerView),
    RexOpportunityBanner window now = Some view ->
    exists anomalies,
      MaintenanceWindow.anomalies window = Some anomalies
      /\ addressed view = length anomalies
      /\ 1 <= addressed view
      /\ resolvedAnomalyCount window <= addressed view.
Proof.
  intros window now view. unfold RexOpportunityBanner, hasSignificantAnomalies,
    resolvedAnomalyCount, resolvedAnomalies.
  destruct (negb (isCompleted_of window now)); simpl; [discriminate|].
  destruct (MaintenanceWindow.anomalies window) as [[|a l]|]; simpl; try discriminate.
  intros [= <-]. exists (a :: l). simpl. repeat split; try lia.
  pose proof (filter_length_le is_resolved (a :: l)) as H. simpl in H. exact H.
Qed.

Lemma banner_reports_all_anomalies_witness :
  exists anomalies,
    MaintenanceWindow.anomalies sample_window_with_anomalies = Some anomalies
    /\ addressed {| addressed := 3 |} = length anomalies
    /\ 1 <= addressed {| addressed := 3 |}
    /\ resolvedAnomalyCount sample_window_with_anomalies <= addressed {| addressed := 3 |}.
Proof.
  apply (banner_reports_all_anomalies sample_window_with_anomalies 11 {| addressed := 3 |}).
  reflexivity.
Defined.

(** ** More on the records of a window *)

Lemma lastRexDate_of_last (l : list ReturnOfExperience.t) :
  lastRexDate_of l = Normal (ReturnOfExperience.createdAt <$> last l).
Proof.
  unfold lastRexDate_of. rewrite lookup_last.
  destruct l as [|x l]; [reflexivity|].
  change (0 <? length (x :: l))%nat with true. cbv iota.
  destruct (last (x :: l)) eqn:E; [reflexivity|].
  apply last_None in E. discriminate.
Qed.

(** X12.  The body of the component computes what it passes to its
    children without a TypeError, whatever records the store holds: the
    index read at line 436 is always inside the array.  The count it
    passes on is at most the number of stored records, the last date is
    absent exactly when the count is 0, and a date that is passed is the
    creation date of a stored record that matches the window.  (What the
    children do with these values, formatting dates for one, is theirs.) *)
Theorem children_props_computed_and_consistent :
  forall (props : RexIntegrationProps) (st : RexIntegrationState) (now : Z),
    exists view,
      RexIntegration props st now = Normal view
      /\ rexCount (summaryCard view)
         = length (windowRexRecords (rexRecords st) (maintenanceWindow props))
      /\ rexCount (summaryCard view) <= length (rexRecords st)
      /\ (lastRexDate (summaryCard view) = None <-> rexCount (summaryCard view) = 0)
      /\ (forall d, lastRexDate (summaryCard view) = Some d ->
            exists rex, In rex (rexRecords st)
                        /\ belongs_to_window (maintenanceWindow props) rex = true
                        /\ ReturnOfExperience.createdAt rex = d)
      /\ banner view = RexOpportunityBanner (maintenanceWindow props) now
      /\ creationActions view = isCompleted props.
Proof.
  intros props st now. unfold RexIntegration.
  rewrite lastRexDate_of_last.
  set (records := windowRexRecords (rexRecords st) (maintenanceWindow props)).
  eexists. split; [reflexivity|]. simpl.
  split; [reflexivity|]. split; [apply filter_length_le|]. split; [|split].
  - destruct records as [|x l] eqn:E; simpl; [tauto|].
    split; [|discriminate].
    destruct (last (x :: l)) eqn:El; [discriminate|].
    apply last_None in El. discriminate.
  - intros d Hd.
    destruct (last records) as [rex|] eqn:El; [|discriminate].
    injection Hd as <-. exists rex.
    apply last_Some in El as [l' El].
    assert (Hin : In rex records) by (rewrite El; apply in_or_app; right; now left).
    apply filter_In in Hin. tauto.
  - split; reflexivity.
Qed.

(** X13.  Were a record appended to the store, the records of a window
    would gain it at the end when it matches and stay the same when it
    does not; the last date would become its creation date in the first
    case and not move in the second. *)
Theorem appended_record_is_last :
  forall (records : list ReturnOfExperience.t) (rex : ReturnOfExperience.t)
         (W : MaintenanceWindow.t),
    windowRexRecords (records ++ [rex]) W
    = windowRexRecords records W ++ (if belongs_to_window W rex then [rex] else [])
    /\ lastRexDate_of (windowRexRecords (records ++ [rex]) W)
       = if belongs_to_window W rex
         then Normal (Some (ReturnOfExperience.createdAt rex))
         else lastRexDate_of (windowRexRecords records W).
Proof.
  intros records rex W. unfold windowRexRecords.
  rewrite List.filter_app. simpl.
  destruct (belongs_to_window W rex); split; try reflexivity.
  - now rewrite lastRexDate_of_last, last_snoc.
  - now rewrite app_nil_r.
Qed.

(** X14.  A window with an empty title, or with no id, or with an empty
    id, is given every record of the store, related or not. *)
Theorem blank_title_or_id_matches_all :
  forall (records : list ReturnOfExperience.t) (W : MaintenanceWindow.t),
    MaintenanceWindow.title W = ""
    \/ MaintenanceWindow.id W = None
    \/ MaintenanceWindow.id W = Some "" ->
    windowRexRecords records W = records.
Proof.
  intros records W H. unfold windowRexRecords.
  apply forallb_filter_id, forallb_forall. intros rex _.
  unfold belongs_to_window.
  destruct H as [-> | [-> | ->]]; simpl; rewrite includes_empty;
    auto using orb_true_r.
Qed.

Lemma blank_title_or_id_matches_all_witness :
  windowRexRecords sample_records sample_window_untitled = sample_records.
Proof.
  apply (blank_title_or_id_matches_all sample_records sample_window_untitled).
  left. reflexivity.
Defined.

(** ** Navigation and typing *)

(** X15.  "Create Full REX" only navigates: the dialog state is left as
    it is and nothing is called.  Two windows are sent to the same
    address exactly when their ids are the same once an absent id is read
    as the text "undefined"; so a window without id and a window whose id
    is "undefined" cannot be told apart by the page navigated to. *)
Theorem createFullRex_navigates_by_id :
  forall (w1 w2 : MaintenanceWindow.t) (onRexCreated : option Callback) (st : DialogState),
    dialog_step w1 onRexCreated st CreateFullRex
    = (st, [navigate ("/rex?source=maintenance&windowId="
                      +:+ default "undefined" (MaintenanceWindow.id w1))])
    /\ (handleCreateFullRex w1 = handleCreateFullRex w2
        <-> default "undefined" (MaintenanceWindow.id w1)
            = default "undefined" (MaintenanceWindow.id w2)).
Proof.
  intros w1 w2 onRexCreated st. split.
  - unfold dialog_step, dialog_handler, handleCreateFullRex. cbn.
    now destruct (MaintenanceWindow.id w1).
  - unfold handleCreateFullRex, emit.
    destruct (MaintenanceWindow.id w1), (MaintenanceWindow.id w2); simpl;
      (split; [intros H; first [reflexivity | injection H; auto] | intros E; congruence]).
Qed.





(** X17.  The impact level and the category chosen in the form are not
    part of the record: choosing either before submitting changes
    neither the record handed to the callback nor whether it is handed
    over. *)
Theorem impact_and_category_are_dropped :
  forall (window : MaintenanceWindow.t) (onRexCreated : option Callback)
         (st : DialogState) (i : Impact) (c : Category) (Date_now new_Date : Z),
    callback_calls
      (snd (dialog_run window onRexCreated st
              [ChangeImpact i; ChangeCategory c; Submit Date_now new_Date]))
    = callback_calls
        (snd (dialog_run window onRexCreated st [Submit Date_now new_Date]))
    /\ (forall fd,
          newRex (with_field (with_field fd (ChangeImpact i)) (ChangeCategory c))
            Date_now new_Date
          = newRex fd Date_now new_Date).
Proof.
  intros window onRexCreated st i c Date_now new_Date. split; [|reflexivity].
  cbn [dialog_run]. unfold dialog_step.
  cbn [dialog_handler fst snd emit commit fold_left apply_update formData app
       callback_calls].
  rewrite !app_nil_r. reflexivity.
Qed.

(** X18.  In a session that the page allows, a record handed to the
    callback comes from a click on the submit button of the dialog under
    the summary card, in a render whose [isCompleted] prop is set and
    that was given a callback, and it carries the clock readings of that
    click; in a session where [isCompleted] is never set, nothing is
    handed over, whatever is created from the banner. *)
Theorem callback_only_from_mounted_actions_dialog :
  forall (st : RexIntegrationState)
         (session : list (RexIntegrationProps * Z * option Action))
         (st' : RexIntegrationState) (trace : list Event),
    run_mounted st session = Some (st', trace) ->
    (forall rex, In rex (callback_calls trace) ->
       exists pre props now Date_now new_Date post,
         session = pre ++ (props, now, Some (InActions (Submit Date_now new_Date))) :: post
         /\ isCompleted props = true
         /\ is_Some (onRexCreated props)
         /\ ReturnOfExperience.id rex = "rex_" +:+ Js.Number_toString Date_now
         /\ ReturnOfExperience.createdAt rex = Js.TimeValue new_Date)
    /\ (forallb (fun turn => negb (isCompleted (fst (fst turn)))) session = true ->
        callback_calls trace = []).
Proof.
  intros st session; revert st.
  induction session as [|[[props now] [a|]] rest IH]; intros st st' trace H.
  - injection H as <- <-. split; [intros rex []|reflexivity].
  - cbn [run_mounted] in H.
    destruct (mounted props now a) eqn:Hm; [|discriminate].
    destruct (step props (remount props now st) a) as [st1 tr] eqn:Es.
    destruct (run_mounted st1 rest) as [[st2 tr']|] eqn:Er; [|discriminate].
    injection H as <- <-. destruct (IH _ _ _ Er) as [IH1 IH2].
    assert (Hstep : forall rex, In rex (callback_calls tr) ->
              exists Date_now new_Date,
                a = InActions (Submit Date_now new_Date)
                /\ rex = newRex (formData (actionsDialog (remount props now st)))
                           Date_now new_Date
                /\ is_Some (onRexCreated props)).
    { intros rex Hin.
      assert (Hin' : In rex (callback_calls (snd (step props (remount props now st) a))))
        by now rewrite Es.
      apply step_calls in Hin' as (t & d & -> & _ & -> & Hs). eauto. }
    split.
    + intros rex Hin. rewrite callback_calls_app, in_app_iff in Hin.
      destruct Hin as [Hin|Hin].
      * destruct (Hstep _ Hin) as (t & d & -> & -> & Hs).
        exists [], props, now, t, d, rest. repeat split; auto.
      * destruct (IH1 _ Hin) as (pre & props' & now' & t & d & post & -> & Hrest).
        now exists ((props, now, Some a) :: pre), props', now', t, d, post.
    + intros Hall. cbn [forallb fst] in Hall. apply andb_true_iff in Hall as [Hc Hall].
      rewrite callback_calls_app, (IH2 Hall), app_nil_r.
      destruct (callback_calls tr) as [|rex l] eqn:E; [reflexivity|].
      destruct (Hstep rex) as (t & d & -> & _ & _); [now left|].
      cbn [mounted] in Hm. rewrite Hm in Hc. discriminate.
  - cbn [run_mounted] in H. destruct (IH _ _ _ H) as [IH1 IH2]. split.
    + intros rex Hin.
      destruct (IH1 _ Hin) as (pre & props' & now' & t & d & post & -> & Hrest).
      now exists ((props, now, None) :: pre), props', now', t, d, post.
    + intros Hall. cbn [forallb] in Hall. apply andb_true_iff in Hall as [_ Hall].
      now apply IH2.
Qed.

Lemma callback_only_from_mounted_actions_dialog_witness :
  (forall rex, In rex (callback_calls sample_session_trace) ->
     exists pre props now Date_now new_Date post,
       sample_session
       = pre ++ (props, now, Some (InActions (Submit Date_now new_Date))) :: post
       /\ isCompleted props = true
       /\ is_Some (onRexCreated props)
       /\ ReturnOfExperience.id rex = "rex_" +:+ Js.Number_toString Date_now
       /\ ReturnOfExperience.createdAt rex = Js.TimeValue new_Date)
  /\ (forallb (fun turn => negb (isCompleted (fst (fst turn)))) sample_session = true ->
      callback_calls sample_session_trace = []).
Proof.
  apply (callback_only_from_mounted_actions_dialog
           initialState sample_session initialState sample_session_trace).
  reflexivity.
Defined.
